(** * Retention simulator: cohort decay, incentive effect and financial metrics

    A shallow embedding of [retention_simulator.py].  The script reads its
    parameters from sidebar widgets into module-level globals, builds a
    drop-off table ([load_data]), simulates three scenarios
    ([simulate_scenario], [scenarios]) and derives revenue figures from each
    trajectory ([calculate_metrics] and the loop filling [metrics]).

    Conventions of the embedding.
    - Python [int]s are [Z] (or [nat] where the widget range is non-negative
      and the value is used as a length or a loop bound).
    - Python [float]s are exact rationals [Q].  The script never branches on
      a float, so its control flow does not depend on rounding; equalities
      between computed floats are stated up to [Qeq].
    - Code that can raise returns a [result]; the raised exception is
      recorded. *)

From Stdlib Require Import String List Bool Arith ZArith QArith Lia Lqa.
Import ListNotations.

Local Open Scope Q_scope.

(** ** Exceptions *)

Inductive exception : Type :=
| IndexError
| KeyError.

Inductive result (A : Type) : Type :=
| Ok (a : A)
| Raise (e : exception).

Arguments Ok {A} a.
Arguments Raise {A} e.

Definition bind {A B : Type} (c : result A) (k : A -> result B) : result B :=
  match c with
  | Ok a => k a
  | Raise e => Raise e
  end.

Notation "x <- c ;; k" := (bind c (fun x => k))
  (at level 61, c at next level, right associativity).

(** ** Python and numpy primitives used by the script *)

Module Py.

(** [sum(xs)]: left-to-right accumulation starting from 0. *)
Definition sum (xs : list Q) : Q := fold_left Qplus xs 0.

(** [xs[i]] on a list: negative indices count from the end, anything
    outside [-len, len) raises [IndexError]. *)
Definition getitem {A : Type} (xs : list A) (i : Z) : result A :=
  let n := Z.of_nat (length xs) in
  let j := if (i <? 0)%Z then (i + n)%Z else i in
  if ((0 <=? j)%Z && (j <? n)%Z)%bool then
    match nth_error xs (Z.to_nat j) with
    | Some x => Ok x
    | None => Raise IndexError
    end
  else Raise IndexError.

(** [range(a, b)]. *)
Definition range (a b : nat) : list nat := seq a (b - a).

End Py.

Module Np.

(** [np.arange(a, b)] on integers. *)
Definition arange (a b : nat) : list Z := map Z.of_nat (Py.range a b).

(** [np.linspace(start, stop, num)] with the default [endpoint=True]:
    [num] evenly spaced samples, the last one set to [stop]. *)
Definition linspace (start stop : Q) (num : nat) : list Q :=
  match num with
  | O => []
  | S O => [start]
  | S (S _ as div) =>
      let step := (stop - start) / inject_Z (Z.of_nat div) in
      map (fun k => inject_Z (Z.of_nat k) * step + start) (seq 0 div)
        ++ [stop]
  end.

(** [a[i] = v] on a one-dimensional array with a non-negative index. *)
Definition setitem (a : list Q) (i : nat) (v : Q) : result (list Q) :=
  if (i <? length a)%nat
  then Ok (firstn i a ++ v :: skipn (S i) a)
  else Raise IndexError.

End Np.

(** ** Data model *)

(** One row of the drop-off table: columns [month] and [dropoff_rate]. *)
Record row : Type := Row { month : Z; dropoff_rate : Q }.

(** A [DataFrame] with the default integer index 0, 1, 2, ... *)
Definition DataFrame : Type := list row.

Module Pd.

(** [pd.DataFrame({"month": ms, "dropoff_rate": rs})]. *)
Definition from_columns (ms : list Z) (rs : list Q) : DataFrame :=
  map (fun mr => Row (fst mr) (snd mr)) (combine ms rs).

(** [df['dropoff_rate']]. *)
Definition column (df : DataFrame) : list Q := map dropoff_rate df.

(** [df.loc[i, 'dropoff_rate']]: label lookup, [KeyError] on a label that
    is not in the index. *)
Definition loc (df : DataFrame) (i : nat) : result Q :=
  match nth_error (column df) i with
  | Some r => Ok r
  | None => Raise KeyError
  end.

(** [s.mean()]: sum over count.  On an empty column pandas returns NaN;
    [Q] has no such value (the quotient below is 0 there), so statements
    that depend on the value of the mean are made for non-empty tables. *)
Definition mean (s : list Q) : Q :=
  Py.sum s / inject_Z (Z.of_nat (length s)).

End Pd.

(** The sidebar inputs, read by every function of the script as globals. *)
Record inputs : Type := Inputs {
  initial_learners : Z;
  duration : nat;
  dropoff_month3 : Z;
  revenue_per_learner : Q;
  incentive_cost : Q;
  incentive_month : Z;
  retention_boost : Z;
  uploaded_file : option DataFrame
}.

(** A Python [dict] with string keys, in insertion order. *)
Definition dict (V : Type) : Type := list (string * V).

Module Dict.

(** [d[key]], [None] when the key is absent. *)
Fixpoint get {V : Type} (key : string) (d : dict V) : option V :=
  match d with
  | [] => None
  | (k, v) :: d' => if String.eqb k key then Some v else get key d'
  end.

(** [d[key] = v]: replace in place, or append a new key. *)
Fixpoint set {V : Type} (key : string) (v : V) (d : dict V) : dict V :=
  match d with
  | [] => [(key, v)]
  | (k, w) :: d' =>
      if String.eqb k key then (k, v) :: d' else (k, w) :: set key v d'
  end.

End Dict.

(** The value stored per scenario by the metrics loop. *)
Record entry : Type := Entry {
  learners : list Q;
  gross : Q;
  cost : Q;
  net : Q
}.

(** ** The script *)

Section Script.

Variable g : inputs.

(** Lines 22-31. *)
Definition load_data : result DataFrame :=
  match uploaded_file g with
  | Some csv => Ok csv
  | None =>
      let month := Np.arange 1 (duration g + 1) in
      let dropoff := Np.linspace 10 50 (duration g) in
      dropoff <- Np.setitem dropoff 2 (inject_Z (dropoff_month3 g)) ;;
      Ok (Pd.from_columns month dropoff)
  end.

(** Line 39: the rate read for loop index [i]. *)
Definition lookup_rate (df : DataFrame) (i : nat) : result Q :=
  if (i <? length df)%nat then Pd.loc df i else Ok (Pd.mean (Pd.column df)).

(** Lines 40-41: the incentive effect on the rate. *)
Definition boosted (improved : bool) (i : nat) (rate : Q) : Q :=
  if (improved && (Z.of_nat (i + 1) =? incentive_month g)%Z)%bool
  then rate * (1 - inject_Z (retention_boost g) / 100)
  else rate.

(** The rate line 39 yields at index [i], as a value (the lookup cannot
    raise, see [lookup_rate_ok]). *)
Definition rate_at (df : DataFrame) (i : nat) : Q :=
  if (i <? length df)%nat then nth i (Pd.column df) 0
  else Pd.mean (Pd.column df).

(** Lines 39-43: one iteration of the loop, on the list built so far. *)
Definition loop_body (df : DataFrame) (improved : bool)
    (learners : list Q) (i : nat) : result (list Q) :=
  rate <- lookup_rate df i ;;
  let rate := boosted improved i rate in
  last_ <- Py.getitem learners (-1) ;;
  let retained := last_ * (1 - rate / 100) in
  Ok (learners ++ [retained]).

Fixpoint for_each (body : list Q -> nat -> result (list Q))
    (idx : list nat) (learners : list Q) : result (list Q) :=
  match idx with
  | [] => Ok learners
  | i :: idx' => learners' <- body learners i ;; for_each body idx' learners'
  end.

(** Lines 36-44. *)
Definition simulate_scenario (df : DataFrame) (improved : bool)
    : result (list Q) :=
  for_each (loop_body df improved) (Py.range 1 (duration g))
    [inject_Z (initial_learners g)].

(** The head count the loop appends at index [i], as a value: entry [i]
    of the trajectory (see [simulate_scenario_ok]). *)
Fixpoint level (df : DataFrame) (improved : bool) (i : nat) : Q :=
  match i with
  | O => inject_Z (initial_learners g)
  | S j =>
      level df improved j
      * (1 - boosted improved i (rate_at df i) / 100)
  end.

(** Entries [0] to [n - 1] of the trajectory. *)
Definition levels (df : DataFrame) (improved : bool) (n : nat) : list Q :=
  map (level df improved) (seq 0 n).

(** Lines 53-57. *)
Definition calculate_metrics (learners : list Q) : result (Q * Q * Q) :=
  let gross_revenue :=
    Py.sum (map (fun l => l * revenue_per_learner g) learners) in
  incentive_total <-
    (if ((1 <=? incentive_month g)%Z
         && (incentive_month g <=? Z.of_nat (length learners))%Z)%bool
     then l <- Py.getitem learners (incentive_month g - 1) ;;
          Ok (l * incentive_cost g)
     else Ok 0) ;;
  let net_revenue := gross_revenue - incentive_total in
  Ok (gross_revenue, incentive_total, net_revenue).

(** Lines 46-50: the dictionary of trajectories, built in this order. *)
Definition scenarios (data : DataFrame) : result (dict (list Q)) :=
  baseline <- simulate_scenario data false ;;
  no_effect <- simulate_scenario data false ;;
  improved <- simulate_scenario data true ;;
  Ok [("Baseline (no incentive)"%string, baseline);
      ("Incentive, no effect"%string, no_effect);
      ("Incentive, improved retention"%string, improved)].

(** Lines 61-68: the loop over [scenarios.items()] that fills [metrics]. *)
Fixpoint metrics_loop (items : dict (list Q)) (metrics : dict entry)
    : result (dict entry) :=
  match items with
  | [] => Ok metrics
  | (key, learners) :: items' =>
      r <- calculate_metrics learners ;;
      let '(gross, cost, net) := r in
      metrics_loop items' (Dict.set key (Entry learners gross cost net) metrics)
  end.

(** Lines 33-68: the script up to the metrics table. *)
Definition metrics : result (dict entry) :=
  data <- load_data ;;
  scenarios <- scenarios data ;;
  metrics_loop scenarios [].

End Script.

(** ** Properties of trajectories and rates *)

(** A rate that is a percentage. *)
Definition percentage (r : Q) : Prop := 0 <= r <= 100.

(** Decay only: no entry is negative and no entry exceeds the one before. *)
Definition decay_only (traj : list Q) : Prop :=
  (forall i, (i < length traj)%nat -> 0 <= nth i traj 0)
  /\ (forall i, (1 <= i < length traj)%nat ->
                nth i traj 0 <= nth (i - 1) traj 0).

(** [upper] is at least [lower] in every month from [from_month] on (months
    count from 1, list positions from 0). *)
Definition at_least_from (from_month : Z) (upper lower : list Q) : Prop :=
  forall i, (from_month <= Z.of_nat i + 1)%Z -> (i < length lower)%nat ->
            nth i lower 0 <= nth i upper 0.

(** Pointwise equality of float lists. *)
Definition same_values : list Q -> list Q -> Prop := Forall2 Qeq.

(** ** Concrete inputs *)

(** A table with months 1, 2, ... and the given rates, as [pd.read_csv]
    returns it for a two-column file. *)
Definition rows (rates : list Q) : DataFrame :=
  Pd.from_columns (Np.arange 1 (length rates + 1)) rates.

(** The worked example: 1000 learners, 3 months, rates 10, 10, 30 supplied
    as a table, incentive in month 3 with a 20% boost, 5 per learner both as
    monthly revenue and as incentive cost. *)
Definition example : inputs :=
  Inputs 1000 3 30 5 5 3 20 (Some (rows [10; 10; 30])).

(** One month, the minimum of the duration slider, or two months; no
    uploaded file. *)
Definition one_month : inputs := Inputs 1000 1 30 5 5 1 20 None.
Definition two_months : inputs := Inputs 1000 2 30 5 5 1 20 None.

(** Five months, month-3 drop-off 25, no uploaded file. *)
Definition five_months : inputs := Inputs 1000 5 25 5 5 3 20 None.

(** An uploaded table whose second rate is 150, run for two months. *)
Definition steep : inputs :=
  Inputs 1000 2 30 5 5 2 20 (Some (rows [10; 150])).

(** An uploaded table whose third rate is 200, incentive in month 2. *)
Definition overshoot : inputs :=
  Inputs 1000 3 30 5 5 2 20 (Some (rows [10; 10; 200])).

(** A one-row table run for three months: indices 1 and 2 are beyond it. *)
Definition short_table : inputs :=
  Inputs 1000 3 30 5 5 3 20 (Some (rows [40])).

(** Incentive in month 1. *)
Definition first_month : inputs :=
  Inputs 1000 3 30 5 5 1 20 (Some (rows [10; 10; 30])).

(** Incentive month left beyond a three-month run. *)
Definition late_incentive : inputs :=
  Inputs 1000 3 30 5 5 4 20 (Some (rows [10; 10; 30])).

(** The same inputs with the duration slider moved to [d]. *)
Definition set_duration (d : nat) (g : inputs) : inputs :=
  Inputs (initial_learners g) d (dropoff_month3 g) (revenue_per_learner g)
    (incentive_cost g) (incentive_month g) (retention_boost g)
    (uploaded_file g).

(** The worked example with the boost slider at 0, and at 100. *)
Definition no_boost : inputs :=
  Inputs 1000 3 30 5 5 3 0 (Some (rows [10; 10; 30])).

(** A table whose second rate is 100, run for four months. *)
Definition total_dropout : inputs :=
  Inputs 1000 4 30 5 5 4 20 (Some (rows [10; 100; 30; 30])).

(** A table that differs from that of the worked example in its first row
    and has one row more. *)
Definition other_first_row : DataFrame := rows [99; 10; 30; 77].

(** The rates of the worked example under months 7, 3, 5. *)
Definition shuffled_months : DataFrame :=
  Pd.from_columns [7; 3; 5]%Z [10; 10; 30].

(** Division by the constant 100, put in the form the arithmetic solvers
    read. *)
Ltac per_cent := unfold Qdiv in *; change (/ 100) with (1 # 100) in *.

(** ** The loop of [simulate_scenario], month by month *)

Lemma getitem_last (A : Type) (xs : list A) (x : A) :
  Py.getitem (xs ++ [x]) (-1) = Ok x.
Proof.
  unfold Py.getitem.
  rewrite length_app, Nat.add_1_r, Nat2Z.inj_succ.
  change (-1 <? 0)%Z with true. cbv iota.
  replace (-1 + Z.succ (Z.of_nat (length xs)))%Z
    with (Z.of_nat (length xs)) by lia.
  rewrite Nat2Z.id.
  replace ((0 <=? Z.of_nat (length xs))%Z
           && (Z.of_nat (length xs) <? Z.succ (Z.of_nat (length xs)))%Z)%bool
    with true
    by (symmetry; apply andb_true_iff; split;
        [apply Z.leb_le | apply Z.ltb_lt]; lia).
  rewrite nth_error_app2, Nat.sub_diag by lia. reflexivity.
Qed.

Lemma getitem_in_range (A : Type) (xs : list A) (i : Z) :
  (0 <= i < Z.of_nat (length xs))%Z ->
  exists x, nth_error xs (Z.to_nat i) = Some x /\ Py.getitem xs i = Ok x.
Proof.
  intros [Hlo Hhi]. unfold Py.getitem.
  destruct (Z.ltb_spec i 0) as [Hneg | _]; [lia |].
  destruct (Z.leb_spec 0 i) as [_ | Hneg]; [| lia].
  destruct (Z.ltb_spec i (Z.of_nat (length xs))) as [_ | Hbig]; [| lia].
  cbn [andb].
  destruct (nth_error xs (Z.to_nat i)) as [x |] eqn:Hx.
  - exists x. split; reflexivity.
  - apply nth_error_None in Hx. lia.
Qed.

Section Trajectory.

Variable g : inputs.
Variable df : DataFrame.
Variable improved : bool.

Lemma loc_in_range (i : nat) :
  (i < length df)%nat -> Pd.loc df i = Ok (nth i (Pd.column df) 0).
Proof.
  intros Hi. unfold Pd.loc.
  rewrite (nth_error_nth' (Pd.column df) 0).
  - reflexivity.
  - unfold Pd.column. rewrite length_map. exact Hi.
Qed.

(** Line 39 never raises: the table is only indexed below its length. *)
Lemma lookup_rate_ok (i : nat) : lookup_rate df i = Ok (rate_at df i).
Proof.
  unfold lookup_rate, rate_at.
  destruct (Nat.ltb_spec i (length df)) as [Hi | Hi].
  - apply loc_in_range, Hi.
  - reflexivity.
Qed.

Lemma levels_snoc (n : nat) :
  levels g df improved (S n) = levels g df improved n ++ [level g df improved n].
Proof. unfold levels. rewrite seq_S, map_app. reflexivity. Qed.

Lemma loop_body_ok (n : nat) :
  loop_body g df improved (levels g df improved (S n)) (S n) = Ok (levels g df improved (S (S n))).
Proof.
  unfold loop_body. rewrite lookup_rate_ok. cbn [bind].
  rewrite (levels_snoc n), getitem_last. cbn [bind].
  rewrite <- (levels_snoc n), (levels_snoc (S n)). reflexivity.
Qed.

Lemma for_each_ok (n k : nat) :
  for_each (loop_body g df improved) (seq (S k) n) (levels g df improved (S k))
  = Ok (levels g df improved (S (k + n))).
Proof.
  revert k. induction n as [| n IH]; intros k.
  - rewrite Nat.add_0_r. reflexivity.
  - change (seq (S k) (S n)) with (S k :: seq (S (S k)) n).
    cbn [for_each]. rewrite loop_body_ok. cbn [bind].
    rewrite IH. do 3 f_equal. lia.
Qed.

(** The simulation never raises, and its result lists the levels of months
    1 to [duration] (a single entry when [duration] is 0 or 1). *)
Lemma simulate_scenario_ok :
  simulate_scenario g df improved
  = Ok (levels g df improved (S (duration g - 1))).
Proof.
  unfold simulate_scenario, Py.range.
  exact (for_each_ok (duration g - 1) 0).
Qed.

Lemma nth_levels (n i : nat) (d : Q) :
  (i < n)%nat -> nth i (levels g df improved n) d = level g df improved i.
Proof.
  intros Hi. unfold levels.
  rewrite (nth_indep _ d (level g df improved 0))
    by (now rewrite length_map, length_seq).
  rewrite (map_nth (level g df improved)), seq_nth by exact Hi. reflexivity.
Qed.

Lemma length_levels (n : nat) : length (levels g df improved n) = n.
Proof. unfold levels. now rewrite length_map, length_seq. Qed.

End Trajectory.

(** The trajectory has one entry per month (a single entry when [duration]
    is 0), and entry [i] is [level i]. *)
Lemma simulate_scenario_spec (g : inputs) (df : DataFrame) (improved : bool) :
  exists traj,
    simulate_scenario g df improved = Ok traj
    /\ length traj = S (duration g - 1)
    /\ forall i, (i < length traj)%nat -> nth i traj 0 = level g df improved i.
Proof.
  exists (levels g df improved (S (duration g - 1))).
  split; [apply simulate_scenario_ok |].
  split; [apply length_levels |].
  intros i Hi. rewrite length_levels in Hi. now apply nth_levels.
Qed.

(** ** Rates that are percentages *)

Lemma sum_from_bounds (l : list Q) (a : Q) :
  Forall percentage l ->
  a <= fold_left Qplus l a
  /\ fold_left Qplus l a <= a + 100 * inject_Z (Z.of_nat (length l)).
Proof.
  intros Hl. revert a. induction Hl as [| r l [Hr0 Hr1] _ IH]; intros a.
  - cbn [fold_left length Z.of_nat]. change (inject_Z 0) with 0. split; lra.
  - cbn [fold_left length]. destruct (IH (a + r)) as [IH0 IH1].
    rewrite Nat2Z.inj_succ, <- Z.add_1_r, inject_Z_plus.
    change (inject_Z 1) with 1. split; lra.
Qed.

Lemma mean_percentage (l : list Q) :
  l <> [] -> Forall percentage l -> percentage (Pd.mean l).
Proof.
  intros Hne Hl. unfold Pd.mean, Py.sum.
  destruct (sum_from_bounds l 0 Hl) as [H0 H1].
  assert (Hlen : 0 < inject_Z (Z.of_nat (length l))).
  { destruct l as [| r l]; [congruence |].
    change 0 with (inject_Z 0). rewrite <- Zlt_Qlt. cbn [length]. lia. }
  split.
  - apply Qle_shift_div_l; [exact Hlen | lra].
  - apply Qle_shift_div_r; [exact Hlen | lra].
Qed.

Section Bounds.

Variable g : inputs.
Variable df : DataFrame.

Hypothesis rates_ok : Forall percentage (Pd.column df).
Hypothesis df_nonempty : df <> [].
Hypothesis boost_ok : (0 <= retention_boost g <= 100)%Z.
Hypothesis learners_ok : (0 <= initial_learners g)%Z.

Lemma rate_at_percentage (i : nat) : percentage (rate_at df i).
Proof.
  unfold rate_at. destruct (Nat.ltb_spec i (length df)) as [Hi | Hi].
  - rewrite Forall_forall in rates_ok. apply rates_ok, nth_In.
    unfold Pd.column. rewrite length_map. exact Hi.
  - apply mean_percentage; [| exact rates_ok].
    unfold Pd.column. destruct df; [congruence | discriminate].
Qed.

Lemma boost_fraction : 0 <= inject_Z (retention_boost g) <= 100.
Proof.
  change 0 with (inject_Z 0). change 100 with (inject_Z 100).
  rewrite <- !Zle_Qle. exact boost_ok.
Qed.

Lemma boosted_below (improved : bool) (i : nat) (r : Q) :
  0 <= r -> 0 <= boosted g improved i r <= r.
Proof.
  intros Hr. unfold boosted. pose proof boost_fraction as [Hb0 Hb1].
  destruct (improved && _)%bool; per_cent; split; try nra; lra.
Qed.

Lemma level_unfold (improved : bool) (i : nat) :
  level g df improved (S i)
  = level g df improved i
    * (1 - boosted g improved (S i) (rate_at df (S i)) / 100).
Proof. reflexivity. Qed.

Lemma level_nonneg (improved : bool) (i : nat) : 0 <= level g df improved i.
Proof.
  induction i as [| i IH].
  - cbn [level]. change 0 with (inject_Z 0). rewrite <- Zle_Qle.
    exact learners_ok.
  - rewrite level_unfold.
    destruct (rate_at_percentage (S i)) as [Hr0 Hr1].
    destruct (boosted_below improved (S i) _ Hr0) as [Hb0 Hb1].
    per_cent. nra.
Qed.

Lemma level_decays (improved : bool) (i : nat) :
  level g df improved (S i) <= level g df improved i.
Proof.
  rewrite level_unfold. pose proof (level_nonneg improved i) as Hl.
  destruct (rate_at_percentage (S i)) as [Hr0 Hr1].
  destruct (boosted_below improved (S i) _ Hr0) as [Hb0 Hb1].
  per_cent. nra.
Qed.

(** With the incentive effect every month keeps at least as many learners
    as without it. *)
Lemma level_improved (i : nat) :
  level g df false i <= level g df true i.
Proof.
  induction i as [| i IH].
  - cbn [level]. lra.
  - rewrite !level_unfold.
    pose proof (level_nonneg false i) as Hl.
    destruct (rate_at_percentage (S i)) as [Hr0 Hr1].
    destruct (boosted_below true (S i) _ Hr0) as [Hb0 Hb1].
    change (boosted g false (S i) (rate_at df (S i))) with (rate_at df (S i)).
    per_cent. nra.
Qed.

End Bounds.

(** ** Metrics *)

(** [calculate_metrics] never raises: the list is indexed only under the
    guard [1 <= incentive_month <= len(learners)]. *)
Lemma calculate_metrics_ok (g : inputs) (learners : list Q) :
  exists gross total,
    calculate_metrics g learners = Ok (gross, total, gross - total)
    /\ gross = Py.sum (map (fun l => l * revenue_per_learner g) learners)
    /\ ((incentive_month g < 1
         \/ Z.of_nat (length learners) < incentive_month g)%Z -> total = 0)
    /\ ((1 <= incentive_month g <= Z.of_nat (length learners))%Z ->
        exists l,
          nth_error learners (Z.to_nat (incentive_month g - 1)) = Some l
          /\ total = l * incentive_cost g).
Proof.
  unfold calculate_metrics.
  destruct (Z.leb_spec 1 (incentive_month g)) as [Hlo | Hlo];
    [destruct (Z.leb_spec (incentive_month g) (Z.of_nat (length learners)))
       as [Hhi | Hhi] |]; cbn [andb].
  - destruct (getitem_in_range Q learners (incentive_month g - 1))
      as [l [Hnth Hget]]; [lia |].
    rewrite Hget. cbn [bind]. do 2 eexists.
    split; [reflexivity |]. split; [reflexivity |].
    split; [intros []; lia |]. intros _. exists l. split; [exact Hnth | reflexivity].
  - cbn [bind]. do 2 eexists.
    split; [reflexivity |]. split; [reflexivity |].
    split; [reflexivity |]. intros []; lia.
  - cbn [bind]. do 2 eexists.
    split; [reflexivity |]. split; [reflexivity |].
    split; [reflexivity |]. intros []; lia.
Qed.

(** The metrics loop gives the first two scenarios the same entry, whatever
    the inputs: nothing in [calculate_metrics] depends on the scenario. *)
Lemma metrics_first_two_agree (g : inputs) (ms : dict entry) :
  metrics g = Ok ms ->
  Dict.get "Baseline (no incentive)" ms = Dict.get "Incentive, no effect" ms
  /\ Dict.get "Baseline (no incentive)" ms <> None.
Proof.
  unfold metrics. destruct (load_data g) as [data | e]; [| discriminate].
  cbn [bind]. unfold scenarios.
  rewrite !simulate_scenario_ok. cbn [bind metrics_loop].
  destruct (calculate_metrics_ok g (levels g data false (S (duration g - 1))))
    as [gb [tb [Hb _]]].
  destruct (calculate_metrics_ok g (levels g data true (S (duration g - 1))))
    as [gi [ti [Hi _]]].
  rewrite Hb, Hi. cbn. intros [= <-]. cbn. split; [reflexivity | discriminate].
Qed.

(** C1 (the code departs from the claim).  On the worked example the metrics
    loop charges the scenario stored as "Baseline (no incentive)" the
    incentive cost of month 3, 630 * 5 = 3150: its cost is not 0, its net
    revenue is not its gross revenue, and its entry is the very entry of
    "Incentive, no effect". *)
Theorem baseline_is_charged_incentive :
  exists ms e,
    metrics example = Ok ms
    /\ Dict.get "Baseline (no incentive)" ms = Some e
    /\ Dict.get "Incentive, no effect" ms = Some e
    /\ gross e == 12650
    /\ cost e == 3150
    /\ ~ cost e == 0
    /\ ~ net e == gross e.
Proof.
  destruct (metrics example) as [ms | err] eqn:Hms; [| discriminate].
  vm_compute in Hms. injection Hms as <-.
  eexists. eexists. split; [reflexivity |].
  split; [reflexivity |]. split; [reflexivity |].
  repeat split; try reflexivity; discriminate.
Qed.

(** ** The worked example *)

(** C2.  With 1000 learners, three months, rates 10, 10, 30, the incentive
    in month 3, a boost of 20 and 5 per learner for revenue and for cost:
    the baseline trajectory is 1000, 900, 630 with gross revenue 12650; the
    improved trajectory is 1000, 900, 684, the month-3 rate 30 being reduced
    to 24; its incentive cost is its own month-3 count times 5, 3420, its
    gross revenue 12920 and its net revenue 9500. *)
Theorem worked_example :
  exists data base impr,
    load_data example = Ok data
    /\ simulate_scenario example data false = Ok base
    /\ same_values base [1000; 900; 630]
    /\ simulate_scenario example data true = Ok impr
    /\ same_values impr [1000; 900; 684]
    /\ (exists rate, lookup_rate data 2 = Ok rate
                     /\ rate == 30 /\ boosted example true 2 rate == 24)
    /\ (exists g_b c_b n_b,
          calculate_metrics example base = Ok (g_b, c_b, n_b)
          /\ g_b == 12650)
    /\ (exists g_i c_i n_i,
          calculate_metrics example impr = Ok (g_i, c_i, n_i)
          /\ c_i = nth 2 impr 0 * incentive_cost example
          /\ c_i == 684 * 5 /\ c_i == 3420
          /\ g_i == 12920 /\ n_i == 9500).
Proof.
  exists (rows [10; 10; 30]).
  destruct (simulate_scenario example (rows [10; 10; 30]) false)
    as [base | err] eqn:Hbase; [| discriminate].
  destruct (simulate_scenario example (rows [10; 10; 30]) true)
    as [impr | err] eqn:Himpr; [| discriminate].
  vm_compute in Hbase, Himpr.
  injection Hbase as <-. injection Himpr as <-.
  do 2 eexists. split; [reflexivity |]. split; [reflexivity |].
  split; [repeat constructor |]. split; [reflexivity |].
  split; [repeat constructor |]. split.
  - eexists. split; [reflexivity |]. split; reflexivity.
  - split.
    + do 3 eexists. split; [reflexivity |]. reflexivity.
    + do 3 eexists. split; [reflexivity |]. repeat split; reflexivity.
Qed.

(** ** The synthesized table *)

Lemma length_linspace (start stop : Q) (num : nat) :
  length (Np.linspace start stop num) = num.
Proof.
  destruct num as [| [| n]]; [reflexivity | reflexivity |].
  unfold Np.linspace.
  rewrite length_app, length_map, length_seq. cbn [length]. lia.
Qed.

(** Away from its last sample [linspace] is linear in the index. *)
Lemma nth_linspace (start stop : Q) (num k : nat) :
  (k + 1 < num)%nat ->
  nth k (Np.linspace start stop num) 0
  = inject_Z (Z.of_nat k)
    * ((stop - start) / inject_Z (Z.of_nat (num - 1))) + start.
Proof.
  intros Hk. destruct num as [| [| n]]; [lia | lia |].
  unfold Np.linspace. rewrite app_nth1 by (rewrite length_map, length_seq; lia).
  replace (S (S n) - 1)%nat with (S n) by lia.
  set (f := fun j : nat => _).
  rewrite (nth_indep _ 0 (f 0%nat)) by (rewrite length_map, length_seq; lia).
  rewrite (map_nth f), seq_nth by lia. reflexivity.
Qed.

Lemma last_linspace (start stop : Q) (num : nat) :
  (2 <= num)%nat -> nth (num - 1) (Np.linspace start stop num) 0 = stop.
Proof.
  intros Hn. destruct num as [| [| n]]; [lia | lia |].
  unfold Np.linspace.
  rewrite app_nth2 by (rewrite length_map, length_seq; lia).
  rewrite length_map, length_seq.
  replace (S (S n) - 1 - S n)%nat with 0%nat by lia. reflexivity.
Qed.

Lemma setitem_short (a : list Q) (i : nat) (v : Q) :
  (length a <= i)%nat -> Np.setitem a i v = Raise IndexError.
Proof.
  intros Hi. unfold Np.setitem.
  destruct (Nat.ltb_spec i (length a)); [lia | reflexivity].
Qed.

Lemma setitem_ok (a : list Q) (i : nat) (v : Q) :
  (i < length a)%nat ->
  exists a', Np.setitem a i v = Ok a'
             /\ length a' = length a
             /\ nth i a' 0 = v
             /\ forall k, k <> i -> nth k a' 0 = nth k a 0.
Proof.
  intros Hi. unfold Np.setitem.
  destruct (Nat.ltb_spec i (length a)); [| lia].
  eexists. split; [reflexivity |].
  assert (Hfl : length (firstn i a) = i) by (rewrite length_firstn; lia).
  split; [| split].
  - rewrite length_app, Hfl. cbn [length]. rewrite length_skipn. lia.
  - rewrite app_nth2, Hfl, Nat.sub_diag by lia. reflexivity.
  - intros k Hk. destruct (Nat.lt_ge_cases k i) as [Hlt | Hge].
    + rewrite app_nth1 by lia. rewrite nth_firstn.
      destruct (Nat.ltb_spec k i); [reflexivity | lia].
    + rewrite app_nth2, Hfl by lia.
      destruct (k - i)%nat as [| j] eqn:Hj; [lia |]. cbn [nth].
      rewrite nth_skipn. f_equal. lia.
Qed.

Lemma length_from_columns (ms : list Z) (rs : list Q) :
  length ms = length rs -> length (Pd.from_columns ms rs) = length rs.
Proof.
  intros H. unfold Pd.from_columns. rewrite length_map, length_combine. lia.
Qed.

Lemma column_from_columns (ms : list Z) (rs : list Q) :
  length ms = length rs -> Pd.column (Pd.from_columns ms rs) = rs.
Proof.
  unfold Pd.column, Pd.from_columns. rewrite map_map. cbn [dropoff_rate].
  revert ms. induction rs as [| r rs IH]; intros [| m ms] H;
    try discriminate; [reflexivity |].
  cbn [combine map snd]. f_equal. apply IH. now injection H.
Qed.

Lemma length_arange (a b : nat) : length (Np.arange a b) = (b - a)%nat.
Proof. unfold Np.arange, Py.range. now rewrite length_map, length_seq. Qed.

(** Without an uploaded file and with fewer than three months, the
    assignment to index 2 raises. *)
Lemma load_data_short (g : inputs) :
  uploaded_file g = None -> (duration g < 3)%nat ->
  load_data g = Raise IndexError.
Proof.
  intros Hup Hd. unfold load_data. rewrite Hup.
  rewrite setitem_short by (rewrite length_linspace; lia). reflexivity.
Qed.

(** From three months on, the synthesized table has one row per month; its
    rates are those of [linspace 10 50], except the one at index 2, which is
    the month-3 input. *)
Lemma load_data_synthesized (g : inputs) :
  uploaded_file g = None -> (3 <= duration g)%nat ->
  exists df,
    load_data g = Ok df
    /\ length df = duration g
    /\ nth 2 (Pd.column df) 0 = inject_Z (dropoff_month3 g)
    /\ forall k, k <> 2%nat ->
         nth k (Pd.column df) 0 = nth k (Np.linspace 10 50 (duration g)) 0.
Proof.
  intros Hup Hd. unfold load_data. rewrite Hup.
  destruct (setitem_ok (Np.linspace 10 50 (duration g)) 2
              (inject_Z (dropoff_month3 g))) as [a [Ha [Hlen [H2 Hk]]]];
    [rewrite length_linspace; lia |].
  rewrite Ha. cbn [bind]. rewrite length_linspace in Hlen.
  assert (Hms : length (Np.arange 1 (duration g + 1)) = length a)
    by (rewrite length_arange; lia).
  eexists. split; [reflexivity |].
  rewrite length_from_columns, column_from_columns by exact Hms.
  repeat split; assumption.
Qed.

(** Five months: 10, 20, 30, 40, 50 with index 2 replaced by 25. *)
Example load_data_five_months :
  exists df,
    load_data five_months = Ok df
    /\ map month df = [1; 2; 3; 4; 5]%Z
    /\ same_values (Pd.column df) [10; 20; 25; 40; 50].
Proof.
  destruct (load_data five_months) as [df | err] eqn:Hdf; [| discriminate].
  vm_compute in Hdf. injection Hdf as <-.
  eexists. split; [reflexivity |]. split; [reflexivity |].
  repeat constructor.
Qed.

(** C3 (the code departs from the claim).  With the duration slider at 1 or
    at 2 and no uploaded file, [load_data] raises [IndexError]: the
    synthesized array has one or two entries and the script assigns to its
    index 2. *)
Theorem load_data_raises_below_three_months :
  uploaded_file one_month = None /\ duration one_month = 1%nat
  /\ load_data one_month = Raise IndexError
  /\ uploaded_file two_months = None /\ duration two_months = 2%nat
  /\ load_data two_months = Raise IndexError
  /\ metrics one_month = Raise IndexError
  /\ metrics two_months = Raise IndexError.
Proof. repeat split; reflexivity. Qed.

(** ** Decay *)

(** C4, as stated, fails: nothing bounds the rates of an uploaded table.
    With rates 10 and 150 and two months, the second entry of the baseline
    trajectory is 1000 * (1 - 150/100) = -500. *)
Lemma steep_table_goes_negative :
  exists data traj,
    load_data steep = Ok data
    /\ simulate_scenario steep data false = Ok traj
    /\ same_values traj [1000; -500]
    /\ nth 1 traj 0 < 0
    /\ ~ decay_only traj.
Proof.
  exists (rows [10; 150]).
  destruct (simulate_scenario steep (rows [10; 150]) false)
    as [traj | err] eqn:Htraj; [| discriminate].
  vm_compute in Htraj. injection Htraj as <-.
  eexists. split; [reflexivity |]. split; [reflexivity |].
  split; [repeat constructor |].
  split; [reflexivity |].
  intros [Hpos _]. specialize (Hpos 1%nat ltac:(cbn [length]; lia)).
  revert Hpos. apply Qlt_not_le. reflexivity.
Qed.

(** C4, amended.  When every rate of a non-empty table is a percentage, the
    boost is between 0 and 100 and the initial head count is not negative,
    the simulation returns a trajectory in which no entry is negative and
    no entry exceeds the one before it, with or without the incentive
    effect. *)
Theorem trajectory_decays (g : inputs) (df : DataFrame) (improved : bool) :
  Forall percentage (Pd.column df) ->
  df <> [] ->
  (0 <= retention_boost g <= 100)%Z ->
  (0 <= initial_learners g)%Z ->
  exists traj,
    simulate_scenario g df improved = Ok traj /\ decay_only traj.
Proof.
  intros Hrates Hne Hboost Hinit.
  destruct (simulate_scenario_spec g df improved) as [traj [Hrun [_ Hnth]]].
  exists traj. split; [exact Hrun |]. split.
  - intros i Hi. rewrite Hnth by exact Hi. now apply level_nonneg.
  - intros i [Hi1 Hi]. rewrite !Hnth by lia.
    replace i with (S (i - 1)) at 1 by lia. now apply level_decays.
Qed.

(** [trajectory_decays] on the worked example, improved scenario. *)
Lemma trajectory_decays_witness :
  exists traj,
    simulate_scenario example (rows [10; 10; 30]) true = Ok traj
    /\ decay_only traj.
Proof.
  apply (trajectory_decays example (rows [10; 10; 30]) true).
  - repeat constructor; discriminate.
  - discriminate.
  - cbn. lia.
  - cbn. lia.
Defined.

(** ** Scenarios *)

(** C5.  For every table and every input, building [scenarios] succeeds
    and stores one and the same trajectory, the one simulated without the
    incentive effect, under "Baseline (no incentive)" and under
    "Incentive, no effect". *)
Theorem baseline_and_no_effect_coincide (g : inputs) (df : DataFrame) :
  exists sc traj,
    scenarios g df = Ok sc
    /\ simulate_scenario g df false = Ok traj
    /\ Dict.get "Baseline (no incentive)" sc = Some traj
    /\ Dict.get "Incentive, no effect" sc = Some traj.
Proof.
  unfold scenarios. rewrite !simulate_scenario_ok. cbn [bind].
  do 2 eexists. split; [reflexivity |]. split; [reflexivity |].
  split; reflexivity.
Qed.

(** C6, as stated, fails: with an uploaded rate above 100 after the
    incentive month the sign of the head count flips, and the larger cohort
    of the improved scenario becomes the smaller number.  Rates 10, 10, 200,
    incentive in month 2, boost 20: baseline 1000, 900, -900; improved 1000,
    920, -920. *)
Lemma overshoot_reverses_order :
  exists data base impr,
    load_data overshoot = Ok data
    /\ (0 < retention_boost overshoot)%Z
    /\ simulate_scenario overshoot data false = Ok base
    /\ simulate_scenario overshoot data true = Ok impr
    /\ same_values base [1000; 900; -900]
    /\ same_values impr [1000; 920; -920]
    /\ ~ at_least_from (incentive_month overshoot) impr base.
Proof.
  exists (rows [10; 10; 200]).
  destruct (simulate_scenario overshoot (rows [10; 10; 200]) false)
    as [base | err] eqn:Hbase; [| discriminate].
  destruct (simulate_scenario overshoot (rows [10; 10; 200]) true)
    as [impr | err] eqn:Himpr; [| discriminate].
  vm_compute in Hbase, Himpr.
  injection Hbase as <-. injection Himpr as <-.
  do 2 eexists. split; [reflexivity |]. split; [reflexivity |].
  split; [reflexivity |]. split; [reflexivity |].
  split; [repeat constructor |]. split; [repeat constructor |].
  intros H.
  specialize (H 2%nat ltac:(cbn; lia) ltac:(cbn [length]; lia)).
  revert H. apply Qlt_not_le. reflexivity.
Qed.

Lemma level_baseline_nonneg (g : inputs) (df : DataFrame) (i : nat) :
  Forall percentage (Pd.column df) ->
  df <> [] ->
  (0 <= initial_learners g)%Z ->
  0 <= level g df false i.
Proof.
  intros Hrates Hne Hinit. induction i as [| i IH].
  - cbn [level]. change 0 with (inject_Z 0). rewrite <- Zle_Qle. exact Hinit.
  - cbn [level].
    change (boosted g false (S i) (rate_at df (S i))) with (rate_at df (S i)).
    destruct (rate_at_percentage df Hrates Hne (S i)) as [Hr0 Hr1].
    per_cent. nra.
Qed.

(** A boost that is not negative never raises the rate, however large it
    is. *)
Lemma boosted_not_above (g : inputs) (improved : bool) (i : nat) (r : Q) :
  (0 <= retention_boost g)%Z -> 0 <= r -> boosted g improved i r <= r.
Proof.
  intros Hb Hr. unfold boosted.
  assert (Hb' : 0 <= inject_Z (retention_boost g))
    by (change 0 with (inject_Z 0); rewrite <- Zle_Qle; exact Hb).
  destruct (improved && _)%bool; per_cent; [nra | lra].
Qed.

Lemma level_improved_any_boost (g : inputs) (df : DataFrame) (i : nat) :
  Forall percentage (Pd.column df) ->
  df <> [] ->
  (0 <= retention_boost g)%Z ->
  (0 <= initial_learners g)%Z ->
  level g df false i <= level g df true i.
Proof.
  intros Hrates Hne Hboost Hinit. induction i as [| i IH].
  - cbn [level]. lra.
  - cbn [level].
    change (boosted g false (S i) (rate_at df (S i))) with (rate_at df (S i)).
    pose proof (level_baseline_nonneg g df i Hrates Hne Hinit) as Hl.
    destruct (rate_at_percentage df Hrates Hne (S i)) as [Hr0 Hr1].
    pose proof (boosted_not_above g true (S i) _ Hboost Hr0) as Hb.
    per_cent. nra.
Qed.

(** C6, amended.  When every rate of a non-empty table is a percentage, the
    boost is positive (however large) and the initial head count is not
    negative, both simulations return and the improved trajectory is at
    least the baseline one in every month from [incentive_month] on. *)
Theorem improved_at_least_baseline (g : inputs) (df : DataFrame) :
  Forall percentage (Pd.column df) ->
  df <> [] ->
  (0 < retention_boost g)%Z ->
  (0 <= initial_learners g)%Z ->
  exists base impr,
    simulate_scenario g df false = Ok base
    /\ simulate_scenario g df true = Ok impr
    /\ length impr = length base
    /\ at_least_from (incentive_month g) impr base.
Proof.
  intros Hrates Hne Hboost Hinit.
  destruct (simulate_scenario_spec g df false) as [base [Hb [Hlb Hnb]]].
  destruct (simulate_scenario_spec g df true) as [impr [Hi [Hli Hni]]].
  exists base, impr. repeat split; try assumption; [congruence |].
  intros i _ Hlt. rewrite Hnb, Hni by congruence.
  apply level_improved_any_boost; try assumption. lia.
Qed.

(** [improved_at_least_baseline] on the worked example. *)
Lemma improved_at_least_baseline_witness :
  exists base impr,
    simulate_scenario example (rows [10; 10; 30]) false = Ok base
    /\ simulate_scenario example (rows [10; 10; 30]) true = Ok impr
    /\ length impr = length base
    /\ at_least_from (incentive_month example) impr base.
Proof.
  apply (improved_at_least_baseline example (rows [10; 10; 30])).
  - repeat constructor; discriminate.
  - discriminate.
  - cbn. lia.
  - cbn. lia.
Defined.

(** ** The incentive charge *)

(** C7.  [calculate_metrics] returns for every list and every incentive
    month.  When the month is below 1 or above the length of the list the
    incentive total is 0; otherwise it is the entry at position
    [incentive_month - 1] (the month counted from 1) times the incentive
    cost.  A trajectory has [duration] entries, so an incentive month beyond
    the duration gives 0 for every table and either kind of simulation. *)
Theorem incentive_total_cases (g : inputs) :
  (forall learners : list Q,
      exists gross total,
        calculate_metrics g learners = Ok (gross, total, gross - total)
        /\ ((incentive_month g < 1
             \/ Z.of_nat (length learners) < incentive_month g)%Z ->
            total = 0)
        /\ ((1 <= incentive_month g <= Z.of_nat (length learners))%Z ->
            exists l,
              nth_error learners (Z.to_nat (incentive_month g - 1)) = Some l
              /\ total = l * incentive_cost g))
  /\ (forall (df : DataFrame) (improved : bool),
         (1 <= duration g)%nat ->
         (Z.of_nat (duration g) < incentive_month g)%Z ->
         exists traj gross,
           simulate_scenario g df improved = Ok traj
           /\ length traj = duration g
           /\ calculate_metrics g traj = Ok (gross, 0, gross - 0)).
Proof.
  split.
  - intros learners.
    destruct (calculate_metrics_ok g learners)
      as [gross [total [Hrun [_ [Hout Hin]]]]].
    exists gross, total. repeat split; assumption.
  - intros df improved Hd Hm.
    destruct (simulate_scenario_spec g df improved) as [traj [Hrun [Hlen _]]].
    destruct (calculate_metrics_ok g traj) as [gross [total [Hc [_ [Hout _]]]]].
    exists traj, gross. split; [exact Hrun |]. split; [lia |].
    rewrite Hc, Hout by lia. reflexivity.
Qed.

(** [incentive_total_cases] with the incentive month at 4 in a three-month run. *)
Lemma incentive_total_cases_witness :
  exists traj gross,
    simulate_scenario late_incentive (rows [10; 10; 30]) true = Ok traj
    /\ length traj = duration late_incentive
    /\ calculate_metrics late_incentive traj = Ok (gross, 0, gross - 0).
Proof.
  apply (proj2 (incentive_total_cases late_incentive)).
  - cbn. lia.
  - cbn. lia.
Defined.

(** ** The fallback rate *)

(** C8.  At a loop index that is at or beyond the length of a non-empty
    table, line 39 yields the arithmetic mean of the table's rates, the sum
    of the column over its count, and the simulation derives the entry of
    that month from it: the previous entry times one minus that rate over
    100, the rate being first reduced by the boost when the month is the
    incentive month of the improved scenario. *)
Theorem fallback_rate_is_mean
    (g : inputs) (df : DataFrame) (improved : bool) (i : nat) :
  df <> [] ->
  (length df <= i)%nat ->
  (1 <= i < duration g)%nat ->
  lookup_rate df i
  = Ok (Py.sum (Pd.column df) / inject_Z (Z.of_nat (length (Pd.column df))))
  /\ exists traj,
       simulate_scenario g df improved = Ok traj
       /\ nth i traj 0
          = nth (i - 1) traj 0
            * (1 - boosted g improved i (Pd.mean (Pd.column df)) / 100).
Proof.
  intros _ Hlen [Hi1 Hid]. split.
  - unfold lookup_rate.
    destruct (Nat.ltb_spec i (length df)); [lia | reflexivity].
  - destruct (simulate_scenario_spec g df improved) as [traj [Hrun [Hl Hnth]]].
    exists traj. split; [exact Hrun |].
    rewrite !Hnth by lia.
    replace i with (S (i - 1)) at 1 2 3 by lia.
    cbn [level]. unfold rate_at.
    destruct (Nat.ltb_spec (S (i - 1)) (length df)); [lia |].
    replace (S (i - 1)) with i by lia. reflexivity.
Qed.

(** [fallback_rate_is_mean] on a one-row table, at loop index 2. *)
Lemma fallback_rate_is_mean_witness :
  lookup_rate (rows [40]) 2
  = Ok (Py.sum (Pd.column (rows [40]))
        / inject_Z (Z.of_nat (length (Pd.column (rows [40])))))
  /\ exists traj,
       simulate_scenario short_table (rows [40]) true = Ok traj
       /\ nth 2 traj 0
          = nth (2 - 1) traj 0
            * (1 - boosted short_table true 2
                     (Pd.mean (Pd.column (rows [40]))) / 100).
Proof.
  apply (fallback_rate_is_mean short_table (rows [40]) true 2).
  - discriminate.
  - cbn. lia.
  - cbn. lia.
Defined.

(** ** Incentive in the first month *)

Lemma boosted_first_month (g : inputs) (improved : bool) (i : nat) (r : Q) :
  incentive_month g = 1%Z -> (1 <= i)%nat -> boosted g improved i r = r.
Proof.
  intros Hm Hi. unfold boosted. rewrite Hm.
  destruct (Z.eqb_spec (Z.of_nat (i + 1)) 1) as [Heq | _]; [lia |].
  now rewrite andb_false_r.
Qed.

Lemma level_first_month (g : inputs) (df : DataFrame) (i : nat) :
  incentive_month g = 1%Z -> level g df true i = level g df false i.
Proof.
  intros Hm. induction i as [| i IH]; [reflexivity |].
  cbn [level]. rewrite IH, !boosted_first_month by (assumption || lia).
  reflexivity.
Qed.

(** C9.  With the incentive in month 1, the improved simulation returns the
    very trajectory of the baseline one, for every table and every boost:
    the loop starts at the transition into month 2, so no rate is reduced.
    The incentive total of that trajectory is still the initial head count
    times the incentive cost. *)
Theorem incentive_in_first_month (g : inputs) (df : DataFrame) :
  incentive_month g = 1%Z ->
  simulate_scenario g df true = simulate_scenario g df false
  /\ exists traj gross,
       simulate_scenario g df true = Ok traj
       /\ calculate_metrics g traj
          = Ok (gross,
                inject_Z (initial_learners g) * incentive_cost g,
                gross - inject_Z (initial_learners g) * incentive_cost g).
Proof.
  intros Hm. split.
  - rewrite !simulate_scenario_ok. f_equal. unfold levels.
    apply map_ext. intros i. now apply level_first_month.
  - destruct (simulate_scenario_spec g df true) as [traj [Hrun [Hlen Hnth]]].
    destruct (calculate_metrics_ok g traj) as [gross [total [Hc [_ [_ Hin]]]]].
    destruct Hin as [l [Hl Ht]]; [lia |].
    exists traj, gross. split; [exact Hrun |].
    rewrite Hm in Hl. cbn in Hl.
    assert (H0 : nth 0 traj 0 = l) by (now apply nth_error_nth).
    rewrite Hnth in H0 by lia. cbn [level] in H0.
    rewrite Hc, Ht, <- H0. reflexivity.
Qed.

(** [incentive_in_first_month] on the worked example with the incentive moved
    to month 1. *)
Lemma incentive_in_first_month_witness :
  simulate_scenario first_month (rows [10; 10; 30]) true
  = simulate_scenario first_month (rows [10; 10; 30]) false
  /\ exists traj gross,
       simulate_scenario first_month (rows [10; 10; 30]) true = Ok traj
       /\ calculate_metrics first_month traj
          = Ok (gross,
                inject_Z (initial_learners first_month)
                * incentive_cost first_month,
                gross - inject_Z (initial_learners first_month)
                        * incentive_cost first_month).
Proof.
  apply (incentive_in_first_month first_month (rows [10; 10; 30])).
  reflexivity.
Defined.

(** ** Tables that cover the duration *)

(** C10.  When the table has at least [duration] rows -- as every table
    [load_data] synthesizes has, with exactly [duration] rows --
    [simulate_scenario] never takes the mean fallback.  Entry [i] of the
    trajectory it returns, for every [i] from 1 on, is appended by the
    iteration with loop index [i]; that index is below the length of the
    table, so the test of line 39 succeeds, the rate read is the table's own
    entry at [i], read without raising, and the entry is the one before it
    times one minus that rate (after the boost) over 100. *)
Theorem no_fallback_when_table_covers_duration
    (g : inputs) (df : DataFrame) (improved : bool) :
  (duration g <= length df)%nat
  \/ (uploaded_file g = None /\ load_data g = Ok df) ->
  (duration g <= length df)%nat
  /\ (uploaded_file g = None -> load_data g = Ok df ->
      length df = duration g)
  /\ exists traj,
       simulate_scenario g df improved = Ok traj
       /\ length traj = Nat.max 1 (duration g)
       /\ forall i, (1 <= i < length traj)%nat ->
            (i <? length df)%nat = true
            /\ exists r,
                 nth_error (Pd.column df) i = Some r
                 /\ Pd.loc df i = Ok r
                 /\ lookup_rate df i = Ok r
                 /\ nth i traj 0
                    = nth (i - 1) traj 0
                      * (1 - boosted g improved i r / 100).
Proof.
  intros Hcover.
  assert (Hsynth : uploaded_file g = None -> load_data g = Ok df ->
                   length df = duration g).
  { intros Hup Hload.
    destruct (Nat.lt_ge_cases (duration g) 3) as [Hshort | Hlong].
    - rewrite (load_data_short g Hup Hshort) in Hload. discriminate.
    - destruct (load_data_synthesized g Hup Hlong) as [df' [Hl' [Hlen _]]].
      congruence. }
  assert (Hlen : (duration g <= length df)%nat).
  { destruct Hcover as [Hlen | [Hup Hload]]; [exact Hlen |].
    rewrite (Hsynth Hup Hload). lia. }
  split; [exact Hlen |]. split; [exact Hsynth |].
  destruct (simulate_scenario_spec g df improved) as [traj [Hrun [Hl Hnth]]].
  exists traj. split; [exact Hrun |]. split; [lia |].
  intros i [Hi1 Hi].
  assert (Hlt : (i < length df)%nat) by lia.
  assert (Hb : (i <? length df)%nat = true) by (apply Nat.ltb_lt, Hlt).
  split; [exact Hb |].
  exists (nth i (Pd.column df) 0).
  split; [apply nth_error_nth'; unfold Pd.column; now rewrite length_map |].
  split; [now apply loc_in_range |].
  split; [unfold lookup_rate; rewrite Hb; now apply loc_in_range |].
  rewrite !Hnth by lia.
  destruct i as [| i']; [lia |].
  replace (S i' - 1)%nat with i' by lia.
  cbn [level]. unfold rate_at. rewrite Hb. reflexivity.
Qed.

(** [no_fallback_when_table_covers_duration] on the worked example, improved
    scenario: three rows for three months. *)
Lemma no_fallback_when_table_covers_duration_witness :
  Nat.le (duration example) (length (rows [10; 10; 30]))
  /\ (uploaded_file example = None ->
      load_data example = Ok (rows [10; 10; 30]) ->
      length (rows [10; 10; 30]) = duration example)
  /\ exists traj,
       simulate_scenario example (rows [10; 10; 30]) true = Ok traj
       /\ length traj = Nat.max 1 (duration example)
       /\ forall i, (1 <= i < length traj)%nat ->
            Nat.ltb i (length (rows [10; 10; 30])) = true
            /\ exists r,
                 nth_error (Pd.column (rows [10; 10; 30])) i = Some r
                 /\ Pd.loc (rows [10; 10; 30]) i = Ok r
                 /\ lookup_rate (rows [10; 10; 30]) i = Ok r
                 /\ nth i traj 0
                    = nth (i - 1) traj 0
                      * (1 - boosted example true i r / 100).
Proof.
  apply (no_fallback_when_table_covers_duration
           example (rows [10; 10; 30]) true).
  left. cbn. lia.
Defined.

(** * Further properties of the script *)

(** ** Shape of a trajectory *)

Lemma boosted_other_month (g : inputs) (improved : bool) (i : nat) (r : Q) :
  Z.of_nat (i + 1) <> incentive_month g -> boosted g improved i r = r.
Proof.
  intros Hm. unfold boosted.
  destruct (Z.eqb_spec (Z.of_nat (i + 1)) (incentive_month g)) as [Heq | _];
    [contradiction |].
  now rewrite andb_false_r.
Qed.


(** X1.  For a non-empty table (a table as [DataFrame] holds it: parsed,
    with a numeric [dropoff_rate] column and the default index) and with or
    without the incentive effect, [simulate_scenario] returns without
    raising, however short the table is.  The list has [duration] entries
    (one when [duration] is 0), starts with the initial head count, and
    every later entry is the entry before it times one minus the month's
    rate over 100, the rate being the one line 39 reads, after the boost of
    lines 40-41. *)
Theorem simulate_scenario_shape
    (g : inputs) (df : DataFrame) (improved : bool) :
  df <> [] ->
  exists traj,
    simulate_scenario g df improved = Ok traj
    /\ length traj = Nat.max 1 (duration g)
    /\ nth_error traj 0 = Some (inject_Z (initial_learners g))
    /\ forall i, (1 <= i < length traj)%nat ->
         exists rate,
           lookup_rate df i = Ok rate
           /\ nth i traj 0
              = nth (i - 1) traj 0 * (1 - boosted g improved i rate / 100).
Proof.
  intros _.
  destruct (simulate_scenario_spec g df improved) as [traj [Hrun [Hlen Hnth]]].
  exists traj. split; [exact Hrun |]. split; [lia |]. split.
  - rewrite (nth_error_nth' traj 0) by lia.
    rewrite Hnth by lia. reflexivity.
  - intros i [Hi1 Hi]. exists (rate_at df i).
    split; [apply lookup_rate_ok |].
    rewrite !Hnth by lia.
    destruct i as [| i']; [lia |].
    replace (S i' - 1)%nat with i' by lia. reflexivity.
Qed.

(** [simulate_scenario_shape] on a one-row table run for three months. *)
Lemma simulate_scenario_shape_witness :
  exists traj,
    simulate_scenario short_table (rows [40]) true = Ok traj
    /\ length traj = Nat.max 1 (duration short_table)
    /\ nth_error traj 0 = Some (inject_Z (initial_learners short_table))
    /\ forall i, (1 <= i < length traj)%nat ->
         exists rate,
           lookup_rate (rows [40]) i = Ok rate
           /\ nth i traj 0
              = nth (i - 1) traj 0
                * (1 - boosted short_table true i rate / 100).
Proof.
  apply (simulate_scenario_shape short_table (rows [40]) true).
  discriminate.
Defined.

(** ** Where the incentive acts *)

Lemma level_before_incentive (g : inputs) (df : DataFrame) (i : nat) :
  (Z.of_nat i + 1 < incentive_month g)%Z ->
  level g df true i = level g df false i.
Proof.
  induction i as [| i IH]; intros Hi; [reflexivity |].
  cbn [level]. rewrite IH by lia.
  rewrite !boosted_other_month by lia. reflexivity.
Qed.

(** X2.  Before the incentive month the incentive changes nothing: for every
    table and every boost, the improved trajectory and the baseline one have
    the same entries in all months before [incentive_month]. *)
Theorem same_before_incentive_month (g : inputs) (df : DataFrame) :
  exists base impr,
    simulate_scenario g df false = Ok base
    /\ simulate_scenario g df true = Ok impr
    /\ length impr = length base
    /\ forall i, (i < length base)%nat ->
         (Z.of_nat i + 1 < incentive_month g)%Z ->
         nth i impr 0 = nth i base 0.
Proof.
  destruct (simulate_scenario_spec g df false) as [base [Hb [Hlb Hnb]]].
  destruct (simulate_scenario_spec g df true) as [impr [Hi [Hli Hni]]].
  exists base, impr. repeat split; try assumption; [congruence |].
  intros i Hlt Hm. rewrite Hnb, Hni by congruence.
  now apply level_before_incentive.
Qed.

(** X3.  The incentive acts in its own month only.  For a non-empty table,
    in every month other than [incentive_month] the improved trajectory and
    the baseline one take the same step: each entry is the entry before it,
    in its own trajectory, times one minus the rate line 39 reads over 100,
    with the same rate and no boost in both. *)
Theorem same_step_outside_incentive_month (g : inputs) (df : DataFrame) :
  df <> [] ->
  exists base impr,
    simulate_scenario g df false = Ok base
    /\ simulate_scenario g df true = Ok impr
    /\ length impr = length base
    /\ forall i, (1 <= i < length base)%nat ->
         Z.of_nat (i + 1) <> incentive_month g ->
         exists rate,
           lookup_rate df i = Ok rate
           /\ nth i base 0 = nth (i - 1) base 0 * (1 - rate / 100)
           /\ nth i impr 0 = nth (i - 1) impr 0 * (1 - rate / 100).
Proof.
  intros _.
  destruct (simulate_scenario_spec g df false) as [base [Hb [Hlb Hnb]]].
  destruct (simulate_scenario_spec g df true) as [impr [Hi [Hli Hni]]].
  exists base, impr. split; [exact Hb |]. split; [exact Hi |].
  split; [congruence |].
  intros i [Hi1 Hlt] Hm. exists (rate_at df i).
  split; [apply lookup_rate_ok |].
  rewrite !Hnb, !Hni by lia.
  destruct i as [| i']; [lia |].
  replace (S i' - 1)%nat with i' by lia.
  cbn [level]. rewrite !boosted_other_month by exact Hm.
  split; reflexivity.
Qed.

(** [same_step_outside_incentive_month] on a four-month run with the
    incentive in month 4. *)
Lemma same_step_outside_incentive_month_witness :
  exists base impr,
    simulate_scenario total_dropout (rows [10; 100; 30; 30]) false = Ok base
    /\ simulate_scenario total_dropout (rows [10; 100; 30; 30]) true
       = Ok impr
    /\ length impr = length base
    /\ forall i, (1 <= i < length base)%nat ->
         Z.of_nat (i + 1) <> incentive_month total_dropout ->
         exists rate,
           lookup_rate (rows [10; 100; 30; 30]) i = Ok rate
           /\ nth i base 0 = nth (i - 1) base 0 * (1 - rate / 100)
           /\ nth i impr 0 = nth (i - 1) impr 0 * (1 - rate / 100).
Proof.
  apply (same_step_outside_incentive_month
           total_dropout (rows [10; 100; 30; 30])).
  discriminate.
Defined.

(** ** The boost at its ends *)

Lemma map_same_values (f h : nat -> Q) (l : list nat) :
  (forall x, f x == h x) -> same_values (map f l) (map h l).
Proof.
  intros Hfh. induction l as [| x l IH]; constructor; [apply Hfh | exact IH].
Qed.

Lemma boosted_zero (g : inputs) (improved : bool) (i : nat) (r : Q) :
  retention_boost g = 0%Z -> boosted g improved i r == r.
Proof.
  intros Hb. unfold boosted. rewrite Hb.
  destruct (improved && _)%bool; [| reflexivity].
  change (inject_Z 0) with 0. per_cent. ring.
Qed.

Lemma level_boost_zero (g : inputs) (df : DataFrame) (i : nat) :
  retention_boost g = 0%Z -> level g df true i == level g df false i.
Proof.
  intros Hb. induction i as [| i IH]; [reflexivity |].
  cbn [level]. rewrite IH, !boosted_zero by exact Hb. reflexivity.
Qed.

(** X4.  With the boost at 0 the improved scenario has the values of the
    baseline in every month, for every non-empty table and every incentive
    month. *)
Theorem zero_boost_changes_nothing (g : inputs) (df : DataFrame) :
  df <> [] ->
  retention_boost g = 0%Z ->
  exists base impr,
    simulate_scenario g df false = Ok base
    /\ simulate_scenario g df true = Ok impr
    /\ same_values impr base.
Proof.
  intros _ Hb. rewrite !simulate_scenario_ok. do 2 eexists.
  split; [reflexivity |]. split; [reflexivity |].
  apply map_same_values. intros i. now apply level_boost_zero.
Qed.

(** [zero_boost_changes_nothing] on the worked example with boost 0. *)
Lemma zero_boost_changes_nothing_witness :
  exists base impr,
    simulate_scenario no_boost (rows [10; 10; 30]) false = Ok base
    /\ simulate_scenario no_boost (rows [10; 10; 30]) true = Ok impr
    /\ same_values impr base.
Proof.
  apply (zero_boost_changes_nothing no_boost (rows [10; 10; 30])).
  - discriminate.
  - reflexivity.
Defined.



(** ** A month in which everybody leaves *)




(** ** A longer run *)

Lemma level_set_duration
    (d : nat) (g : inputs) (df : DataFrame) (improved : bool) (i : nat) :
  level (set_duration d g) df improved i = level g df improved i.
Proof.
  induction i as [| i IH]; [reflexivity |].
  cbn [level]. rewrite IH. reflexivity.
Qed.

Lemma firstn_seq_le (n a m : nat) :
  (n <= m)%nat -> firstn n (seq a m) = seq a n.
Proof.
  revert a m. induction n as [| n IH]; intros a m Hn; [reflexivity |].
  destruct m as [| m]; [lia |].
  cbn [seq firstn]. f_equal. apply IH. lia.
Qed.

(** X7.  Moving the duration slider up, with the table and the other inputs
    unchanged, only appends months: the trajectory of the shorter run is the
    beginning of the trajectory of the longer one. *)
Theorem longer_run_extends_trajectory
    (g : inputs) (df : DataFrame) (improved : bool) (d : nat) :
  (duration g <= d)%nat ->
  exists short long,
    simulate_scenario g df improved = Ok short
    /\ simulate_scenario (set_duration d g) df improved = Ok long
    /\ (length short <= length long)%nat
    /\ firstn (length short) long = short.
Proof.
  intros Hd. rewrite !simulate_scenario_ok. do 2 eexists.
  split; [reflexivity |]. split; [reflexivity |].
  rewrite !length_levels. cbn [duration set_duration].
  split; [lia |].
  unfold levels. rewrite firstn_map, firstn_seq_le by lia.
  apply map_ext. intros i. apply level_set_duration.
Qed.

(** [longer_run_extends_trajectory] on the worked example, from 3 months to
    12. *)
Lemma longer_run_extends_trajectory_witness :
  exists short long,
    simulate_scenario example (rows [10; 10; 30]) true = Ok short
    /\ simulate_scenario (set_duration 12 example) (rows [10; 10; 30]) true
       = Ok long
    /\ (length short <= length long)%nat
    /\ firstn (length short) long = short.
Proof.
  apply (longer_run_extends_trajectory example (rows [10; 10; 30]) true 12).
  cbn. lia.
Defined.

(** ** The metrics table *)

(** X9.  When [load_data] raises, the script stops with that exception.
    When it returns a table (a table as [DataFrame] holds it: parsed, with a
    numeric [dropoff_rate] column and the default index; an uploaded file
    without such a column is not one), neither the simulations nor the
    metrics loop raise: [metrics] holds three entries in the order Baseline,
    no effect, improved; each stores the trajectory of its scenario with the
    figures [calculate_metrics] returns for it, the net revenue being gross
    minus cost; the first two entries are equal. *)
Theorem metrics_table (g : inputs) :
  match load_data g with
  | Raise e => metrics g = Raise e
  | Ok data =>
      exists base impr g_b c_b g_i c_i,
        simulate_scenario g data false = Ok base
        /\ simulate_scenario g data true = Ok impr
        /\ calculate_metrics g base = Ok (g_b, c_b, g_b - c_b)
        /\ calculate_metrics g impr = Ok (g_i, c_i, g_i - c_i)
        /\ metrics g
           = Ok [("Baseline (no incentive)"%string,
                  Entry base g_b c_b (g_b - c_b));
                 ("Incentive, no effect"%string,
                  Entry base g_b c_b (g_b - c_b));
                 ("Incentive, improved retention"%string,
                  Entry impr g_i c_i (g_i - c_i))]
  end.
Proof.
  unfold metrics. destruct (load_data g) as [data | e]; [| reflexivity].
  cbn [bind]. unfold scenarios.
  destruct (simulate_scenario_spec g data false) as [base [Hb _]].
  destruct (simulate_scenario_spec g data true) as [impr [Hi _]].
  destruct (calculate_metrics_ok g base) as [g_b [c_b [Hcb _]]].
  destruct (calculate_metrics_ok g impr) as [g_i [c_i [Hci _]]].
  exists base, impr, g_b, c_b, g_i, c_i.
  rewrite Hb, Hi. cbn [bind metrics_loop]. rewrite Hcb, Hci. cbn.
  repeat split; reflexivity.
Qed.

(** ** Rates of the synthesized table *)

Lemma linspace_10_50_bounds (num k : nat) :
  (k < num)%nat ->
  10 <= nth k (Np.linspace 10 50 num) 0 <= 50.
Proof.
  intros Hk.
  destruct (Nat.eq_dec num 1) as [-> | Hn1].
  { replace k with 0%nat by lia. cbn. split; discriminate. }
  destruct (Nat.eq_dec k (num - 1)) as [-> | Hlast].
  { rewrite last_linspace by lia. split; discriminate. }
  rewrite nth_linspace by lia.
  set (D := inject_Z (Z.of_nat (num - 1))).
  set (K := inject_Z (Z.of_nat k)).
  assert (HD : 0 < D)
    by (unfold D; change 0 with (inject_Z 0); rewrite <- Zlt_Qlt; lia).
  assert (HK0 : 0 <= K)
    by (unfold K; change 0 with (inject_Z 0); rewrite <- Zle_Qle; lia).
  assert (HKD : K <= D) by (unfold K, D; rewrite <- Zle_Qle; lia).
  assert (Ht : D * ((50 - 10) / D) == 40).
  { rewrite Qmult_div_r; [reflexivity |]. intros H0. rewrite H0 in HD.
    discriminate. }
  set (t := (50 - 10) / D) in *.
  assert (Ht0 : 0 <= t) by nra.
  split; nra.
Qed.

(** X10.  Without an uploaded file, from three months on and with the
    month-3 input within its slider range, [load_data] returns one row per
    month; every rate is a percentage; the rate at index 2 is the month-3
    input and every other rate lies between 10 and 50; the first rate has
    the value 10 and, when there are more than three months, the last one
    is 50. *)
Theorem synthesized_rates (g : inputs) :
  uploaded_file g = None ->
  (3 <= duration g)%nat ->
  (0 <= dropoff_month3 g <= 100)%Z ->
  exists df,
    load_data g = Ok df
    /\ length df = duration g
    /\ Forall percentage (Pd.column df)
    /\ nth 2 (Pd.column df) 0 = inject_Z (dropoff_month3 g)
    /\ (forall k, (k < duration g)%nat -> k <> 2%nat ->
          10 <= nth k (Pd.column df) 0 <= 50)
    /\ nth 0 (Pd.column df) 0 == 10
    /\ ((3 < duration g)%nat -> nth (duration g - 1) (Pd.column df) 0 = 50).
Proof.
  intros Hup Hd Hm3.
  destruct (load_data_synthesized g Hup Hd) as [df [Hload [Hlen [H2 Hk]]]].
  exists df. split; [exact Hload |]. split; [exact Hlen |].
  assert (Hother : forall k, (k < duration g)%nat -> k <> 2%nat ->
                     10 <= nth k (Pd.column df) 0 <= 50).
  { intros k Hlt Hne. rewrite Hk by exact Hne.
    now apply linspace_10_50_bounds. }
  assert (Hcol : length (Pd.column df) = duration g)
    by (unfold Pd.column; now rewrite length_map).
  split; [| split; [exact H2 | split; [exact Hother | split]]].
  - apply Forall_forall. intros r Hr.
    destruct (In_nth _ _ 0 Hr) as [k [Hlt <-]].
    destruct (Nat.eq_dec k 2) as [-> | Hne].
    + rewrite H2. unfold percentage.
      change 0 with (inject_Z 0). change 100 with (inject_Z 100).
      rewrite <- !Zle_Qle. exact Hm3.
    + destruct (Hother k) as [Hlo Hhi]; [lia | exact Hne |].
      unfold percentage. split; lra.
  - rewrite Hk by lia. rewrite nth_linspace by lia.
    change (inject_Z (Z.of_nat 0)) with 0. ring.
  - intros Hd3. rewrite Hk by lia. apply last_linspace. lia.
Qed.

(** [synthesized_rates] on a five-month run with month-3 input 25. *)
Lemma synthesized_rates_witness :
  exists df,
    load_data five_months = Ok df
    /\ length df = duration five_months
    /\ Forall percentage (Pd.column df)
    /\ nth 2 (Pd.column df) 0 = inject_Z (dropoff_month3 five_months)
    /\ (forall k, (k < duration five_months)%nat -> k <> 2%nat ->
          10 <= nth k (Pd.column df) 0 <= 50)
    /\ nth 0 (Pd.column df) 0 == 10
    /\ ((3 < duration five_months)%nat ->
        nth (duration five_months - 1) (Pd.column df) 0 = 50).
Proof.
  apply (synthesized_rates five_months).
  - reflexivity.
  - cbn. lia.
  - cbn. lia.
Defined.

(** ** The synthesized table, end to end *)

Lemma levels_decay_only
    (g : inputs) (df : DataFrame) (improved : bool) (n : nat) :
  Forall percentage (Pd.column df) ->
  df <> [] ->
  (0 <= retention_boost g <= 100)%Z ->
  (0 <= initial_learners g)%Z ->
  decay_only (levels g df improved n).
Proof.
  intros Hrates Hne Hboost Hinit. split.
  - intros i Hi. rewrite length_levels in Hi.
    rewrite nth_levels by exact Hi. now apply level_nonneg.
  - intros i [Hi1 Hi]. rewrite length_levels in Hi.
    rewrite !nth_levels by lia.
    replace i with (S (i - 1)) at 1 by lia. now apply level_decays.
Qed.

(** X11.  With no uploaded file, at least three months and the sliders in
    their ranges (month-3 drop-off and boost between 0 and 100, a
    non-negative head count), the script reaches the metrics table, and the
    trajectory stored under every key is decay only: no negative entry, no
    entry above the one before it. *)
Theorem synthesized_run_decays (g : inputs) :
  uploaded_file g = None ->
  (3 <= duration g)%nat ->
  (0 <= dropoff_month3 g <= 100)%Z ->
  (0 <= retention_boost g <= 100)%Z ->
  (0 <= initial_learners g)%Z ->
  exists ms,
    metrics g = Ok ms
    /\ map fst ms = ["Baseline (no incentive)"%string;
                     "Incentive, no effect"%string;
                     "Incentive, improved retention"%string]
    /\ forall key e, Dict.get key ms = Some e -> decay_only (learners e).
Proof.
  intros Hup Hd Hm3 Hboost Hinit.
  destruct (load_data_synthesized g Hup Hd) as [df [Hload [Hlen [H2 Hk]]]].
  assert (Hne : df <> []) by (destruct df; [cbn in Hlen; lia | discriminate]).
  assert (Hrates : Forall percentage (Pd.column df)).
  { apply Forall_forall. intros r Hr.
    destruct (In_nth _ _ 0 Hr) as [k [Hlt <-]].
    unfold Pd.column in Hlt. rewrite length_map in Hlt.
    destruct (Nat.eq_dec k 2) as [-> | Hk2].
    - rewrite H2. unfold percentage.
      change 0 with (inject_Z 0). change 100 with (inject_Z 100).
      rewrite <- !Zle_Qle. exact Hm3.
    - rewrite Hk by exact Hk2.
      destruct (linspace_10_50_bounds (duration g) k) as [Hlo Hhi]; [lia |].
      unfold percentage. split; lra. }
  pose proof (levels_decay_only g df false (S (duration g - 1))
                Hrates Hne Hboost Hinit) as Hbase.
  pose proof (levels_decay_only g df true (S (duration g - 1))
                Hrates Hne Hboost Hinit) as Himpr.
  unfold metrics. rewrite Hload. cbn [bind]. unfold scenarios.
  rewrite !simulate_scenario_ok. cbn [bind metrics_loop].
  destruct (calculate_metrics_ok g (levels g df false (S (duration g - 1))))
    as [g_b [c_b [Hcb _]]].
  destruct (calculate_metrics_ok g (levels g df true (S (duration g - 1))))
    as [g_i [c_i [Hci _]]].
  rewrite Hcb, Hci. cbn. eexists. split; [reflexivity |].
  split; [reflexivity |].
  intros key e Hget. cbn in Hget.
  repeat match type of Hget with
         | (if ?c then _ else _) = _ => destruct c
         end;
    try discriminate; injection Hget as <-; assumption.
Qed.

(** [synthesized_run_decays] on a five-month run. *)
Lemma synthesized_run_decays_witness :
  exists ms,
    metrics five_months = Ok ms
    /\ map fst ms = ["Baseline (no incentive)"%string;
                     "Incentive, no effect"%string;
                     "Incentive, improved retention"%string]
    /\ forall key e, Dict.get key ms = Some e -> decay_only (learners e).
Proof.
  apply (synthesized_run_decays five_months).
  - reflexivity.
  - cbn. lia.
  - cbn. lia.
  - cbn. lia.
  - cbn. lia.
Defined.

(** ** What better retention brings in and costs *)

Lemma sum_from_le (l l' : list Q) (a a' : Q) :
  Forall2 Qle l l' -> a <= a' ->
  fold_left Qplus l a <= fold_left Qplus l' a'.
Proof.
  intros Hl. revert a a'.
  induction Hl as [| x y l l' Hxy _ IH]; intros a a' Ha; [exact Ha |].
  cbn [fold_left]. apply IH. lra.
Qed.

Lemma scaled_pointwise (l l' : list Q) (r : Q) :
  length l = length l' ->
  (forall i, (i < length l)%nat -> nth i l 0 <= nth i l' 0) ->
  0 <= r ->
  Forall2 Qle (map (fun x => x * r) l) (map (fun x => x * r) l').
Proof.
  intros Hlen Hpt Hr. revert l' Hlen Hpt.
  induction l as [| x l IH]; intros [| y l'] Hlen Hpt;
    try discriminate; [constructor |].
  cbn [map]. constructor.
  - specialize (Hpt 0%nat ltac:(cbn [length]; lia)). cbn [nth] in Hpt. nra.
  - apply IH; [now injection Hlen |].
    intros i Hlt. apply (Hpt (S i)). cbn [length]. lia.
Qed.

(** X12.  When every rate of a non-empty table is a percentage, the boost
    is between 0 and 100, the initial head count is not negative and
    neither are the revenue per learner and the incentive cost, the
    improved scenario has at least the gross revenue of the baseline, and
    at least its incentive total. *)
Theorem improved_earns_and_costs_more (g : inputs) (df : DataFrame) :
  Forall percentage (Pd.column df) ->
  df <> [] ->
  (0 <= retention_boost g <= 100)%Z ->
  (0 <= initial_learners g)%Z ->
  0 <= revenue_per_learner g ->
  0 <= incentive_cost g ->
  exists base impr g_b c_b g_i c_i,
    simulate_scenario g df false = Ok base
    /\ simulate_scenario g df true = Ok impr
    /\ calculate_metrics g base = Ok (g_b, c_b, g_b - c_b)
    /\ calculate_metrics g impr = Ok (g_i, c_i, g_i - c_i)
    /\ g_b <= g_i
    /\ 0 <= c_b <= c_i.
Proof.
  intros Hrates Hne Hboost Hinit Hrev Hcost.
  destruct (simulate_scenario_spec g df false) as [base [Hb [Hlb Hnb]]].
  destruct (simulate_scenario_spec g df true) as [impr [Hi [Hli Hni]]].
  destruct (calculate_metrics_ok g base)
    as [g_b [c_b [Hcb [Hgb [Hob Hib]]]]].
  destruct (calculate_metrics_ok g impr)
    as [g_i [c_i [Hci [Hgi [Hoi Hii]]]]].
  exists base, impr, g_b, c_b, g_i, c_i.
  do 4 (split; [assumption |]). split.
  - rewrite Hgb, Hgi. unfold Py.sum. apply sum_from_le; [| lra].
    apply scaled_pointwise; [congruence | | exact Hrev].
    intros i Hlt. rewrite Hnb, Hni by lia. now apply level_improved.
  - destruct (Z_lt_le_dec (incentive_month g) 1) as [Hlow | Hlow];
      [rewrite Hob, Hoi by lia; split; lra |].
    destruct (Z_lt_le_dec (Z.of_nat (length base)) (incentive_month g))
      as [Hhigh | Hhigh];
      [rewrite Hob, Hoi by lia; split; lra |].
    destruct Hib as [lb [Hlb' ->]]; [lia |].
    destruct Hii as [li [Hli' ->]]; [lia |].
    set (k := Z.to_nat (incentive_month g - 1)) in *.
    assert (Hk : (k < length base)%nat) by lia.
    apply (nth_error_nth _ _ 0) in Hlb'. apply (nth_error_nth _ _ 0) in Hli'.
    rewrite Hnb in Hlb' by lia. rewrite Hni in Hli' by lia.
    subst lb li.
    pose proof (level_nonneg g df Hrates Hne Hboost Hinit false k) as H0.
    pose proof (level_improved g df Hrates Hne Hboost Hinit k) as H1.
    split; nra.
Qed.

(** [improved_earns_and_costs_more] on the worked example. *)
Lemma improved_earns_and_costs_more_witness :
  exists base impr g_b c_b g_i c_i,
    simulate_scenario example (rows [10; 10; 30]) false = Ok base
    /\ simulate_scenario example (rows [10; 10; 30]) true = Ok impr
    /\ calculate_metrics example base = Ok (g_b, c_b, g_b - c_b)
    /\ calculate_metrics example impr = Ok (g_i, c_i, g_i - c_i)
    /\ g_b <= g_i
    /\ 0 <= c_b <= c_i.
Proof.
  apply (improved_earns_and_costs_more example (rows [10; 10; 30])).
  - repeat constructor; discriminate.
  - discriminate.
  - cbn. lia.
  - cbn. lia.
  - discriminate.
  - discriminate.
Defined.

(** ** What the simulation reads of the table *)

Lemma rate_at_columns (df df' : DataFrame) (i : nat) :
  Pd.column df = Pd.column df' -> rate_at df i = rate_at df' i.
Proof.
  intros Hcol. unfold rate_at.
  assert (Hlen : length df = length df').
  { rewrite <- (length_map dropoff_rate df), <- (length_map dropoff_rate df').
    exact (f_equal (@length Q) Hcol). }
  rewrite Hlen. fold (Pd.column df). now rewrite Hcol.
Qed.

(** X13.  The table is read by position, in its [dropoff_rate] column only:
    two tables with the same rates give the same trajectory, whatever their
    [month] columns hold. *)
Theorem month_column_is_ignored
    (g : inputs) (df df' : DataFrame) (improved : bool) :
  Pd.column df = Pd.column df' ->
  simulate_scenario g df improved = simulate_scenario g df' improved.
Proof.
  intros Hcol. rewrite !simulate_scenario_ok. f_equal. unfold levels.
  apply map_ext. intros i. induction i as [| i IH]; [reflexivity |].
  cbn [level]. rewrite IH, (rate_at_columns df df') by exact Hcol.
  reflexivity.
Qed.

(** [month_column_is_ignored] on the rates of the worked example, once
    under months 1, 2, 3 and once under months 7, 3, 5. *)
Lemma month_column_is_ignored_witness :
  simulate_scenario example (rows [10; 10; 30]) true
  = simulate_scenario example shuffled_months true.
Proof.
  apply (month_column_is_ignored example (rows [10; 10; 30]) shuffled_months).
  reflexivity.
Defined.

Lemma level_same_rows
    (g : inputs) (df df' : DataFrame) (improved : bool) (i : nat) :
  (duration g <= length df)%nat ->
  (duration g <= length df')%nat ->
  (forall k, (1 <= k < duration g)%nat ->
     nth k (Pd.column df) 0 = nth k (Pd.column df') 0) ->
  (i < S (duration g - 1))%nat ->
  level g df improved i = level g df' improved i.
Proof.
  intros Hl Hl' Hrows. induction i as [| i IH]; intros Hi; [reflexivity |].
  cbn [level]. rewrite IH by lia. unfold rate_at.
  destruct (Nat.ltb_spec (S i) (length df)); [| lia].
  destruct (Nat.ltb_spec (S i) (length df')); [| lia].
  rewrite Hrows by lia. reflexivity.
Qed.

(** X14.  When the table has at least [duration] rows, the simulation reads
    the rows at positions 1 to [duration - 1] and nothing else: the first
    row (the rate listed for month 1) and the rows from position [duration]
    on have no influence on the trajectory. *)
Theorem only_rows_one_to_duration_matter
    (g : inputs) (df df' : DataFrame) (improved : bool) :
  (duration g <= length df)%nat ->
  (duration g <= length df')%nat ->
  (forall k, (1 <= k < duration g)%nat ->
     nth k (Pd.column df) 0 = nth k (Pd.column df') 0) ->
  simulate_scenario g df improved = simulate_scenario g df' improved.
Proof.
  intros Hl Hl' Hrows. rewrite !simulate_scenario_ok. f_equal. unfold levels.
  apply map_ext_in. intros i Hi. apply in_seq in Hi.
  apply level_same_rows; try assumption. lia.
Qed.

(** [only_rows_one_to_duration_matter] on the worked example and a table
    with another first row and a fourth row. *)
Lemma only_rows_one_to_duration_matter_witness :
  simulate_scenario example (rows [10; 10; 30]) true
  = simulate_scenario example other_first_row true.
Proof.
  apply (only_rows_one_to_duration_matter
           example (rows [10; 10; 30]) other_first_row).
  - cbn. lia.
  - cbn. lia.
  - intros k Hk. cbn in Hk.
    destruct k as [| [| [| k]]]; try lia; reflexivity.
Defined.

(** ** An uploaded table *)

(** X16.  With an uploaded file that parses into a table as [DataFrame]
    holds it (a numeric [dropoff_rate] column, the default index), the script
    reaches the metrics table for every duration, durations 1 and 2
    included, and however short the table is: the table is taken as it is,
    no index is assigned, and neither the simulation nor the metrics raise.
    The three scenarios are stored, each with a trajectory of [duration]
    entries (one entry when [duration] is 0).  An upload without such a
    column is outside this statement: line 39 raises on it. *)
Theorem uploaded_table_never_raises (g : inputs) (csv : DataFrame) :
  uploaded_file g = Some csv ->
  exists ms,
    load_data g = Ok csv
    /\ metrics g = Ok ms
    /\ map fst ms = ["Baseline (no incentive)"%string;
                     "Incentive, no effect"%string;
                     "Incentive, improved retention"%string]
    /\ Forall (fun e => length (learners e) = Nat.max 1 (duration g))
              (map snd ms).
Proof.
  intros Hup.
  assert (Hload : load_data g = Ok csv) by (unfold load_data; now rewrite Hup).
  replace (Nat.max 1 (duration g)) with (S (duration g - 1)) by lia.
  unfold metrics. rewrite Hload. cbn [bind]. unfold scenarios.
  destruct (simulate_scenario_spec g csv false) as [base [Hb [Hlb _]]].
  destruct (simulate_scenario_spec g csv true) as [impr [Hi [Hli _]]].
  rewrite Hb, Hi. cbn [bind metrics_loop].
  destruct (calculate_metrics_ok g base) as [g_b [c_b [Hcb _]]].
  destruct (calculate_metrics_ok g impr) as [g_i [c_i [Hci _]]].
  rewrite Hcb, Hci. cbn. eexists. split; [reflexivity |].
  split; [reflexivity |]. split; [reflexivity |].
  repeat constructor; assumption.
Qed.

(** [uploaded_table_never_raises] on a one-row table run for three
    months. *)
Lemma uploaded_table_never_raises_witness :
  exists ms,
    load_data short_table = Ok (rows [40])
    /\ metrics short_table = Ok ms
    /\ map fst ms = ["Baseline (no incentive)"%string;
                     "Incentive, no effect"%string;
                     "Incentive, improved retention"%string]
    /\ Forall (fun e => length (learners e) = Nat.max 1 (duration short_table))
              (map snd ms).
Proof.
  apply (uploaded_table_never_raises short_table (rows [40])).
  reflexivity.
Defined.
